(** * Observation planning notebook: altitude/azimuth of M33, Sun and Moon

    A shallow embedding of [plot_obs-planning.ipynb].  The notebook is a
    straight-line script: it resolves a target by name, builds an observer
    location, builds two grids of observation times, asks the coordinate
    library for horizon coordinates on those grids, derives the airmass and
    plots.

    Numbers.  The script computes with IEEE doubles.  Instants and offsets
    are embedded as rationals ([Q], in hours), so that the time grids
    evaluate; angles are embedded as real numbers ([R], in degrees), so that
    the trigonometric functions are the mathematical ones.  Rounding is not
    modelled: every statement below is about the exact values. *)

From Stdlib Require Import String Bool List ZArith QArith Qfield Reals Lra Lia.
Import ListNotations.

(* ================================================================== *)
(** * Part I.  Definitions                                             *)
(* ================================================================== *)

(** ** Results of fallible steps *)

(** The error taxonomy of the computation.  The script has no [try]: an
    exception raised by a step ends the run. *)
Inductive Error : Type :=
| ResolutionError
| InvalidLocationError
| NetworkError
| ComputationError.

Inductive result (A : Type) : Type :=
| Ok (a : A)
| Err (e : Error).
Arguments Ok {A} a.
Arguments Err {A} e.

(** ** Instants *)

(** An instant is a number of hours on a uniform scale counted from the
    origin of the Modified Julian Date. *)
Definition Time : Type := Q.

(** A civil date and time of day as written in an ISO string such as
    ["2012-7-12 23:00:00"]. *)
Record Civil : Type := mkCivil {
  year : Z; month : Z; day : Z;
  hour : Z; minute : Z; second : Z
}.

(** Gregorian calendar date to Modified Julian Day number, by the integer
    formula the time library's calendar routine uses (divisions truncate
    toward zero). *)
Definition cal2jd (iy im id : Z) : Z :=
  let my := Z.quot (im - 14) 12 in
  let iypmy := (iy + my)%Z in
  (Z.quot (1461 * (iypmy + 4800)) 4
   + Z.quot (367 * (im - 2 - 12 * my)) 12
   - Z.quot (3 * Z.quot (iypmy + 4900) 100) 4
   + id - 2432076)%Z.

(** [Time("...")]: the instant named by a civil date and time. *)
Definition Time_iso (c : Civil) : Time :=
  inject_Z (24 * cal2jd (year c) (month c) (day c) + hour c)
  + inject_Z (minute c) / 60 + inject_Z (second c) / 3600.

(** [t - utcoffset] and [t + delta], in hours. *)
Definition time_sub (t : Time) (d : Q) : Time := t - d.
Definition time_add (t : Time) (d : Q) : Time := t + d.

(** ** Time grids *)

(** [np.arange(0, num)] as numbers. *)
Definition arange (num : nat) : list Q :=
  map (fun i => inject_Z (Z.of_nat i)) (seq 0 num).

(** [y[-1] = v]: overwrite the last element of a non-empty sequence. *)
Fixpoint set_last (y : list Q) (v : Q) : list Q :=
  match y with
  | [] => []
  | x :: rest =>
      match rest with
      | [] => [v]
      | _ :: _ => x :: set_last rest v
      end
  end.

(** [np.linspace(start, stop, num)] with the default [endpoint=True]:
    [div = num - 1]; when [div > 0] the samples are [i * (delta / div) + start],
    otherwise [i * delta + start]; when [num > 1] the last sample is then
    overwritten by [stop].  (The library's separate path for a step that
    underflows to zero computes [i / div * delta], the same number.)  A
    negative [num] raises there; [num] is a natural number here. *)
Definition linspace (start stop : Q) (num : nat) : list Q :=
  let div := (num - 1)%nat in
  let delta := stop - start in
  let y := arange num in
  let y :=
    if (0 <? div)%nat
    then let step := delta / inject_Z (Z.of_nat div) in
         map (fun v => v * step) y
    else map (fun v => v * delta) y in
  let y := map (fun v => v + start) y in
  if (1 <? num)%nat then set_last y stop else y.

(** [midnight + delta_midnight]: the sequence of observation times. *)
Definition obstimes (base : Time) (delta : list Q) : list Time :=
  map (time_add base) delta.

(** The Time Grid Generator: [base + np.linspace(start, stop, num) * u.hour]. *)
Definition time_grid (base : Time) (start stop : Q) (num : nat) : list Time :=
  obstimes base (linspace start stop num).

(** ** Angles, positions and frames *)

Definition deg2rad (d : R) : R := (d * PI / 180)%R.
Definition rad2deg (r : R) : R := (r * 180 / PI)%R.

(** Comparisons of quantities, as the booleans the script computes. *)
Definition Rltb (x y : R) : bool := if Rlt_dec x y then true else false.
Definition Rleb (x y : R) : bool := if Rle_dec x y then true else false.

(** A celestial coordinate pair, in degrees. *)
Record SkyPosition : Type := mkSky { ra : R; dec : R }.

(** What [transform_to] is called on: a fixed position ([m33]) or one
    position per time sample ([get_sun(times)], [get_body("moon", times)]). *)
Inductive SkyCoord : Type :=
| Fixed (p : SkyPosition)
| Ephemeris (ps : list SkyPosition).

(** Geodetic latitude and longitude in degrees, elevation in metres. *)
Record ObserverLocation : Type := mkLocation { lat : R; lon : R; height : R }.

(** [AltAz(obstime=..., location=...)]: the horizon frame.  A single
    observation time is a sequence of one. *)
Record AltAz : Type := mkAltAz { obstime : list Time; location : ObserverLocation }.

(** Altitude above the horizon and azimuth from north, in degrees. *)
Record HorizonCoordinate : Type := mkHorizon { alt : R; az : R }.

(** Modelled from the spec: the Observer Frame Builder.  The script calls
    [EarthLocation(lat=..., lon=..., height=...)], whose body is not part of
    the sources.  Section 4.2 of the specification: latitude in [[-90,90]],
    longitude in [[-180,180]] or [[0,360)], any elevation; out-of-range
    values fail with [InvalidLocationError]; no other failure. *)
Definition EarthLocation (lat lon height : R) : result ObserverLocation :=
  if Rleb (-90) lat && Rleb lat 90 && Rleb (-180) lon && Rltb lon 360
  then Ok (mkLocation lat lon height)
  else Err InvalidLocationError.

(** ** Airmass *)

(** Modelled from the spec: the zenith angle and the airmass.  The script
    reads the attribute [secz] of the transformed coordinates and labels the
    axis "Airmass [Sec(z)]"; the attribute's body is not part of the sources.
    Glossary of the specification: the zenith angle is [90 - altitude];
    section 4.4: the airmass is [1/cos(zenith angle)].  The specification
    gives this formula a meaning above the horizon only; the statements
    below use it for altitudes in [(0,90]]. *)
Definition zen (c : HorizonCoordinate) : R := (90 - alt c)%R.
Definition secz (c : HorizonCoordinate) : R := (1 / cos (deg2rad (zen c)))%R.

(** ** Day, twilight and night shading *)

(** The two [where] arguments of the [fill_between] calls:
    [sunaltazs.alt < -0 * u.deg] and [sunaltazs.alt < -18 * u.deg]. *)
Definition below_horizon_mask (sunaltazs : list HorizonCoordinate) : list bool :=
  map (fun c => Rltb (alt c) (- 0)%R) sunaltazs.
Definition night_mask (sunaltazs : list HorizonCoordinate) : list bool :=
  map (fun c => Rltb (alt c) (- 18)%R) sunaltazs.

(** What a sample looks like once both fills are drawn: the grey fill
    (color "0.5") is drawn first and the black one (color "k") over it at
    the same [zorder]. *)
Inductive Shade : Type := Unshaded | Grey | Black.
Definition shade (grey black : bool) : Shade :=
  if black then Black else if grey then Grey else Unshaded.

Inductive SkyClass : Type := Daylight | Twilight | Night.
Definition class_of_shade (s : Shade) : SkyClass :=
  match s with
  | Unshaded => Daylight
  | Grey => Twilight
  | Black => Night
  end.

(** The class of one sample of the Sun's series, and of the whole series. *)
Definition classify (c : HorizonCoordinate) : SkyClass :=
  class_of_shade (shade (Rltb (alt c) (- 0)%R) (Rltb (alt c) (- 18)%R)).
Definition classification (sunaltazs : list HorizonCoordinate) : list SkyClass :=
  map (fun gb => class_of_shade (shade (fst gb) (snd gb)))
      (combine (below_horizon_mask sunaltazs) (night_mask sunaltazs)).

(** The thresholds read as the specification words them:
    daylight at [0 <= alt], night at [alt <= -18], twilight in between. *)
Definition classify_spec (c : HorizonCoordinate) : SkyClass :=
  if Rleb 0 (alt c) then Daylight
  else if Rleb (alt c) (- 18)%R then Night
  else Twilight.

(** ** The horizon transform in closed form *)

(** [wrap360 x]: the representative of the angle [x] in [[0,360)]. *)
Definition wrap360 (x : R) : R := (x - 360 * IZR (Zfloor (x / 360)))%R.

(** Local sidereal time in degrees: Greenwich sidereal time at the instant
    plus the observer's east longitude. *)
Definition local_sidereal (gmst : Time -> R) (obs : ObserverLocation) (t : Time) : R :=
  (gmst t + lon obs)%R.

(** Modelled from the spec: the Horizon Transform Engine.  The script calls
    [transform_to], whose body is not part of the sources.  Section 4.4 of
    the specification: for a fixed position, the closed-form
    spherical-trigonometry transform from equatorial to horizontal
    coordinates, parameterized by the local sidereal time (which depends on
    the observer's longitude and on the instant); angles in degrees; the
    azimuth wrapped into [[0,360)].  With latitude [phi], declination [delta]
    and hour angle [H]: [sin alt = sin phi sin delta + cos phi cos delta cos H],
    [cos A = (sin delta - sin phi sin alt) / (cos phi cos alt)], and the
    azimuth is [A] east of the meridian and [360 - A] west of it. *)
Definition horizon_transform (gmst : Time -> R)
    (obs : ObserverLocation) (sky : SkyPosition) (t : Time) : HorizonCoordinate :=
  let phi := deg2rad (lat obs) in
  let delta := deg2rad (dec sky) in
  let H := deg2rad (local_sidereal gmst obs t - ra sky) in
  let a := asin (sin phi * sin delta + cos phi * cos delta * cos H)%R in
  let A := acos ((sin delta - sin phi * sin a) / (cos phi * cos a))%R in
  let A := if Rltb 0 (sin H) then (2 * PI - A)%R else A in
  mkHorizon (rad2deg a) (wrap360 (rad2deg A)).

(** The engine on what the script hands it: one horizon coordinate per
    observation time; an ephemeris is evaluated sample by sample. *)
Definition transform_closed_form (gmst : Time -> R)
    (c : SkyCoord) (frame : AltAz) : list HorizonCoordinate :=
  match c with
  | Fixed p => map (horizon_transform gmst (location frame) p) (obstime frame)
  | Ephemeris ps =>
      map (fun pt => horizon_transform gmst (location frame) (fst pt) (snd pt))
          (combine ps (obstime frame))
  end.

(** The same coordinate with its azimuth written [k] turns further round
    before it is wrapped. *)
Definition rewrap (k : Z) (c : HorizonCoordinate) : HorizonCoordinate :=
  mkHorizon (alt c) (wrap360 (az c + 360 * IZR k)).

(** A horizon coordinate in range: altitude in [[-90,90]], azimuth in
    [[0,360)], and unchanged when its azimuth is wrapped again. *)
Definition well_ranged (h : HorizonCoordinate) : Prop :=
  (-90 <= alt h <= 90)%R /\ (0 <= az h < 360)%R /\
  forall k : Z, alt (rewrap k h) = alt h /\ rewrap k h = h.

(** ** The external collaborators *)

(** What a run observes from outside the script: the name resolver
    ([SkyCoord.from_name], network), the ephemeris provider ([get_sun],
    [get_body], network for the Moon) and the transform engine
    ([transform_to]).  Each either returns or raises. *)
Record World : Type := mkWorld {
  from_name : string -> result SkyCoord;
  get_sun : list Time -> result SkyCoord;
  get_body : string -> list Time -> result SkyCoord;
  transform_to : SkyCoord -> AltAz -> result (list HorizonCoordinate)
}.

(** The data handed to the plotting layer by the two figures. *)
Record AirmassPlot : Type := mkAirmassPlot {
  airmass_hours : list Q;
  airmass_values : list R
}.

Record AltitudePlot : Type := mkAltitudePlot {
  altitude_hours : list Q;
  sun_alt : list R;
  moon_alt : list R;
  m33_alt : list R;
  m33_az : list R;
  fill_grey : list bool;
  fill_black : list bool
}.

(** What a run does that is visible from outside, in order: calls to the
    collaborators, the printed altitude, the figures shown. *)
Inductive Event : Type :=
| CallFromName (name : string)
| CallGetSun (times : list Time)
| CallGetBody (name : string) (times : list Time)
| CallTransform (c : SkyCoord) (frame : AltAz)
| Printed (altitude : list R)
| ShowAirmass (p : AirmassPlot)
| ShowAltitude (p : AltitudePlot).

Definition is_plot (e : Event) : bool :=
  match e with
  | ShowAirmass _ | ShowAltitude _ => true
  | _ => false
  end.

Definition is_call (e : Event) : bool :=
  match e with
  | CallFromName _ | CallGetSun _ | CallGetBody _ _ | CallTransform _ _ => true
  | _ => false
  end.

(** ** The script as a computation *)

(** A computation yields the events so far and either a value or the
    exception that ended it. *)
Definition M (A : Type) : Type := (list Event * result A)%type.

Definition ret {A : Type} (a : A) : M A := ([], Ok a).

Definition bind {A B : Type} (m : M A) (k : A -> M B) : M B :=
  match m with
  | (t, Ok a) => let (t', r) := k a in (t ++ t', r)
  | (t, Err e) => (t, Err e)
  end.

Definition call {A : Type} (e : Event) (r : result A) : M A := ([e], r).
Definition emit (e : Event) : M unit := ([e], Ok tt).
Definition lift {A : Type} (r : result A) : M A := ([], r).

Notation "x <- m ;; k" := (bind m (fun x => k))
  (at level 61, m at next level, right associativity).
Notation "m ;;; k" := (bind m (fun _ => k))
  (at level 61, right associativity).

(** The values the script fixes in its text (section 6 of the
    specification lists them as the inputs of the computation). *)
Record Inputs : Type := mkInputs {
  target_name : string;
  site_lat : R;
  site_lon : R;
  site_height : R;
  utcoffset : Q;
  visit_time : Civil;
  local_midnight : Civil;
  night_start : Q; night_stop : Q; night_num : nat;
  full_start : Q; full_stop : Q; full_num : nat
}.

Definition notebook_inputs : Inputs :=
  {| target_name := "M33";
     site_lat := 41.3; site_lon := -74; site_height := 390;
     utcoffset := -4;
     visit_time := mkCivil 2012 7 12 23 0 0;
     local_midnight := mkCivil 2012 7 13 0 0 0;
     night_start := -2; night_stop := 10; night_num := 100;
     full_start := -12; full_stop := 12; full_num := 1000 |}.

(** [time = Time("2012-7-12 23:00:00") - utcoffset] and
    [midnight = Time("2012-7-13 00:00:00") - utcoffset]. *)
Definition time (i : Inputs) : Time := time_sub (Time_iso (visit_time i)) (utcoffset i).
Definition midnight (i : Inputs) : Time := time_sub (Time_iso (local_midnight i)) (utcoffset i).

(** The three frames the script builds. *)
Definition frame_visit (i : Inputs) (bear_mountain : ObserverLocation) : AltAz :=
  mkAltAz [time i] bear_mountain.
Definition frame_July13night (i : Inputs) (bear_mountain : ObserverLocation) : AltAz :=
  mkAltAz (obstimes (midnight i) (linspace (night_start i) (night_stop i) (night_num i)))
          bear_mountain.
Definition times_July12_to_13 (i : Inputs) : list Time :=
  obstimes (midnight i) (linspace (full_start i) (full_stop i) (full_num i)).
Definition frame_July12_to_13 (i : Inputs) (bear_mountain : ObserverLocation) : AltAz :=
  mkAltAz (times_July12_to_13 i) bear_mountain.

(** The second figure's data. *)
Definition altitude_plot (i : Inputs)
    (sunaltazs moonaltazs m33altazs : list HorizonCoordinate) : AltitudePlot :=
  {| altitude_hours := linspace (full_start i) (full_stop i) (full_num i);
     sun_alt := map alt sunaltazs;
     moon_alt := map alt moonaltazs;
     m33_alt := map alt m33altazs;
     m33_az := map az m33altazs;
     fill_grey := below_horizon_mask sunaltazs;
     fill_black := night_mask sunaltazs |}.

(** The code cells of the notebook, top to bottom. *)
Definition run (w : World) (i : Inputs) : M unit :=
  m33 <- call (CallFromName (target_name i)) (from_name w (target_name i)) ;;
  bear_mountain <- lift (EarthLocation (site_lat i) (site_lon i) (site_height i)) ;;
  m33altaz <- call (CallTransform m33 (frame_visit i bear_mountain))
                   (transform_to w m33 (frame_visit i bear_mountain)) ;;
  emit (Printed (map alt m33altaz)) ;;;
  m33altazs_July13night <-
    call (CallTransform m33 (frame_July13night i bear_mountain))
         (transform_to w m33 (frame_July13night i bear_mountain)) ;;
  emit (ShowAirmass
          {| airmass_hours := linspace (night_start i) (night_stop i) (night_num i);
             airmass_values := map secz m33altazs_July13night |}) ;;;
  sun <- call (CallGetSun (times_July12_to_13 i)) (get_sun w (times_July12_to_13 i)) ;;
  sunaltazs_July12_to_13 <-
    call (CallTransform sun (frame_July12_to_13 i bear_mountain))
         (transform_to w sun (frame_July12_to_13 i bear_mountain)) ;;
  moon_July12_to_13 <-
    call (CallGetBody "moon" (times_July12_to_13 i))
         (get_body w "moon" (times_July12_to_13 i)) ;;
  moonaltazs_July12_to_13 <-
    call (CallTransform moon_July12_to_13 (frame_July12_to_13 i bear_mountain))
         (transform_to w moon_July12_to_13 (frame_July12_to_13 i bear_mountain)) ;;
  m33altazs_July12_to_13 <-
    call (CallTransform m33 (frame_July12_to_13 i bear_mountain))
         (transform_to w m33 (frame_July12_to_13 i bear_mountain)) ;;
  emit (ShowAltitude
          (altitude_plot i sunaltazs_July12_to_13 moonaltazs_July12_to_13
                         m33altazs_July12_to_13)).

Definition notebook (w : World) : M unit := run w notebook_inputs.

(** The events and the outcome of a run. *)
Definition trace {A : Type} (m : M A) : list Event := fst m.
Definition outcome {A : Type} (m : M A) : result A := snd m.
Definition plots {A : Type} (m : M A) : list Event := filter is_plot (trace m).

(** The exception a collaborator raises on a call, if any. *)
Definition error_of {A : Type} (r : result A) : option Error :=
  match r with
  | Ok _ => None
  | Err e => Some e
  end.

Definition failure (w : World) (ev : Event) : option Error :=
  match ev with
  | CallFromName name => error_of (from_name w name)
  | CallGetSun times => error_of (get_sun w times)
  | CallGetBody name times => error_of (get_body w name times)
  | CallTransform c frame => error_of (transform_to w c frame)
  | _ => None
  end.

(** A transform engine that answers with one horizon coordinate per
    observation time of the frame. *)
Definition sample_per_obstime (w : World) : Prop :=
  forall c frame r, transform_to w c frame = Ok r ->
                    length r = length (obstime frame).

(** ** Worlds to run the script in *)

(** Greenwich mean sidereal time in degrees, linear in the days elapsed
    since J2000 (MJD 51544.5). *)
Definition gmst_linear (t : Time) : R :=
  (280.46061837 + 360.98564736629 * (Q2R t / 24 - 51544.5))%R.

(** A catalogue that knows one object. *)
Definition catalog (name : string) : result SkyCoord :=
  if String.eqb name "M33" then Ok (Fixed (mkSky 23.4621 30.6599))
  else Err ResolutionError.

(** The closed-form engine as a collaborator: it raises when an ephemeris
    and the frame disagree on the number of samples. *)
Definition transform_checked (gmst : Time -> R)
    (c : SkyCoord) (frame : AltAz) : result (list HorizonCoordinate) :=
  match c with
  | Fixed _ => Ok (transform_closed_form gmst c frame)
  | Ephemeris ps =>
      if (length ps =? length (obstime frame))%nat
      then Ok (transform_closed_form gmst c frame)
      else Err ComputationError
  end.

(** A world in which every collaborator answers: the catalogue above, a Sun
    and a Moon held at their mid-July 2012 positions, one position per
    requested instant, and the closed-form engine. *)
Definition planetarium : World :=
  {| from_name := catalog;
     get_sun := fun times => Ok (Ephemeris (map (fun _ => mkSky 111.8 21.9) times));
     get_body := fun _ times => Ok (Ephemeris (map (fun _ => mkSky 45 17) times));
     transform_to := transform_checked gmst_linear |}.

(** The same world with the name resolver unreachable. *)
Definition offline : World :=
  {| from_name := fun _ => Err ResolutionError;
     get_sun := get_sun planetarium;
     get_body := get_body planetarium;
     transform_to := transform_to planetarium |}.

(** The same world with an engine that raises on ephemeris coordinates and
    transforms fixed positions as before. *)
Definition no_ephemeris_transform : World :=
  {| from_name := catalog;
     get_sun := get_sun planetarium;
     get_body := get_body planetarium;
     transform_to := fun c frame =>
       match c with
       | Fixed _ => transform_to planetarium c frame
       | Ephemeris _ => Err ComputationError
       end |}.

(** The script's inputs with another latitude for the site. *)
Definition at_latitude (i : Inputs) (latitude : R) : Inputs :=
  {| target_name := target_name i;
     site_lat := latitude; site_lon := site_lon i; site_height := site_height i;
     utcoffset := utcoffset i;
     visit_time := visit_time i;
     local_midnight := local_midnight i;
     night_start := night_start i; night_stop := night_stop i; night_num := night_num i;
     full_start := full_start i; full_stop := full_stop i; full_num := full_num i |}.

(** A trace that stops at the first call that raises: nothing follows that
    call, and the outcome is its error. *)
Fixpoint stops_at_failure (w : World) (tr : list Event) (out : result unit) : Prop :=
  match tr with
  | [] => True
  | c :: rest =>
      match failure w c with
      | Some e => rest = [] /\ out = Err e
      | None => stops_at_failure w rest out
      end
  end.

(** ** The figures' axes *)

(** The limits the script sets on the altitude axis of its second figure:
    [plt.ylim(0 * u.deg, 90 * u.deg)]. *)
Definition altitude_ylim : R * R := (0, 90)%R.

(** A value that falls within the limits of its axis is drawn; one outside
    is clipped. *)
Definition in_view (lim : R * R) (y : R) : Prop := (fst lim <= y <= snd lim)%R.

(** The calls to the collaborators among the events of a run. *)
Definition calls (tr : list Event) : list Event := filter is_call tr.

(* ================================================================== *)
(** * Part II.  Properties                                             *)
(* ================================================================== *)

(** ** Time grids *)

Section TimeGrids.
Local Open Scope Q_scope.

Lemma length_arange (num : nat) : length (arange num) = num.
Proof. unfold arange. now rewrite length_map, length_seq. Qed.

Lemma nth_arange (num i : nat) :
  (i < num)%nat -> nth i (arange num) 0 = inject_Z (Z.of_nat i).
Proof.
  intros Hi. unfold arange.
  rewrite (nth_indep _ 0 (inject_Z (Z.of_nat 0))) by now rewrite length_map, length_seq.
  rewrite (map_nth (fun k => inject_Z (Z.of_nat k))).
  now rewrite seq_nth.
Qed.

Lemma length_set_last (y : list Q) (v : Q) : length (set_last y v) = length y.
Proof.
  induction y as [|x rest IH]; [reflexivity|].
  destruct rest as [|x' rest']; [reflexivity|].
  change (S (length (set_last (x' :: rest') v)) = S (length (x' :: rest'))).
  now rewrite IH.
Qed.

Lemma nth_set_last (y : list Q) (v d : Q) (i : nat) :
  (i < length y)%nat ->
  nth i (set_last y v) d = if (S i =? length y)%nat then v else nth i y d.
Proof.
  revert i. induction y as [|x rest IH]; intros i Hi; [inversion Hi|].
  destruct rest as [|x' rest'].
  - destruct i; [reflexivity|]. cbn in Hi. lia.
  - change (set_last (x :: x' :: rest') v) with (x :: set_last (x' :: rest') v).
    destruct i as [|i]; [reflexivity|].
    cbn [nth]. rewrite IH by (cbn in *; lia). reflexivity.
Qed.

Lemma length_linspace (start stop : Q) (num : nat) :
  length (linspace start stop num) = num.
Proof.
  unfold linspace.
  destruct (1 <? num)%nat; [rewrite length_set_last|];
    destruct (0 <? num - 1)%nat;
    now rewrite !length_map, length_arange.
Qed.

(** The samples before the last: [i * step + start]. *)
Lemma nth_linspace_inner (start stop : Q) (num i : nat) :
  (S i < num)%nat ->
  nth i (linspace start stop num) 0
  = inject_Z (Z.of_nat i) * ((stop - start) / inject_Z (Z.of_nat (num - 1))) + start.
Proof.
  intros Hi. unfold linspace.
  assert (H1 : (1 <? num)%nat = true) by (apply Nat.ltb_lt; lia).
  assert (H0 : (0 <? num - 1)%nat = true) by (apply Nat.ltb_lt; lia).
  rewrite H1, H0.
  rewrite nth_set_last by (rewrite !length_map, length_arange; lia).
  rewrite !length_map, length_arange.
  replace (S i =? num)%nat with false by (symmetry; apply Nat.eqb_neq; lia).
  set (step := (stop - start) / inject_Z (Z.of_nat (num - 1))).
  rewrite (nth_indep _ 0 ((fun v => v + start) (0 * step)))
    by (rewrite !length_map, length_arange; lia).
  rewrite (map_nth (fun v => v + start)).
  rewrite (map_nth (fun v => v * step)).
  rewrite nth_arange by lia. reflexivity.
Qed.

(** The last sample is [stop] itself. *)
Lemma nth_linspace_last (start stop : Q) (num : nat) :
  (1 < num)%nat -> nth (num - 1) (linspace start stop num) 0 = stop.
Proof.
  intros Hn. unfold linspace.
  assert (H1 : (1 <? num)%nat = true) by (apply Nat.ltb_lt; lia).
  rewrite H1.
  rewrite nth_set_last.
  - replace (S (num - 1) =? _)%nat with true; [reflexivity|].
    symmetry. apply Nat.eqb_eq.
    destruct (0 <? num - 1)%nat; rewrite !length_map, length_arange; lia.
  - destruct (0 <? num - 1)%nat; rewrite !length_map, length_arange; lia.
Qed.

(** A single sample is [start]. *)
Lemma linspace_one (start stop : Q) :
  linspace start stop 1 = [0 * (stop - start) + start].
Proof. reflexivity. Qed.

Lemma inject_nat_nonzero (n : nat) : (0 < n)%nat -> ~ inject_Z (Z.of_nat n) == 0.
Proof.
  intros Hn H. unfold Qeq in H. cbn in H. lia.
Qed.

Lemma inject_nat_succ (n : nat) :
  inject_Z (Z.of_nat (S n)) == inject_Z (Z.of_nat n) + 1.
Proof. rewrite Nat2Z.inj_succ. unfold Z.succ. now rewrite inject_Z_plus. Qed.

(** Every sample in closed form. *)
Lemma nth_linspace (start stop : Q) (num i : nat) :
  (i < num)%nat ->
  nth i (linspace start stop num) 0
  == start + inject_Z (Z.of_nat i) * ((stop - start) / inject_Z (Z.of_nat (num - 1))).
Proof.
  intros Hi.
  destruct (Nat.eq_dec (S i) num) as [Hlast|Hinner].
  - destruct (Nat.eq_dec num 1) as [->|Hn].
    + assert (i = 0)%nat as -> by lia. rewrite linspace_one. cbn [nth]. ring.
    + replace i with (num - 1)%nat by lia.
      rewrite nth_linspace_last by lia.
      field. apply inject_nat_nonzero. lia.
  - rewrite nth_linspace_inner by lia. ring.
Qed.

Lemma nth_obstimes (base : Time) (delta : list Q) (i : nat) :
  (i < length delta)%nat ->
  nth i (obstimes base delta) 0 = base + nth i delta 0.
Proof.
  intros Hi. unfold obstimes.
  rewrite (nth_indep _ 0 (time_add base 0)) by now rewrite length_map.
  now rewrite (map_nth (time_add base)).
Qed.

Lemma length_obstimes (base : Time) (delta : list Q) :
  length (obstimes base delta) = length delta.
Proof. apply length_map. Qed.

(** C2.  For every base instant, start and end offsets and sample count
    [N >= 1], the time grid has exactly [N] instants; the [i]-th is
    [base + start + i * (stop - start) / (N - 1)], so consecutive instants
    are [(stop - start) / (N - 1)] apart; the first is [base + start] and,
    when [N > 1], the last is [base + stop]. *)
Theorem time_grid_evenly_spaced (base : Time) (start stop : Q) (N : nat) :
  (1 <= N)%nat ->
  length (time_grid base start stop N) = N /\
  (forall i, (i < N)%nat ->
     nth i (time_grid base start stop N) 0
     == base + start
        + inject_Z (Z.of_nat i) * ((stop - start) / inject_Z (Z.of_nat (N - 1)))) /\
  (forall i, (S i < N)%nat ->
     nth (S i) (time_grid base start stop N) 0 - nth i (time_grid base start stop N) 0
     == (stop - start) / inject_Z (Z.of_nat (N - 1))) /\
  nth 0 (time_grid base start stop N) 0 == base + start /\
  ((1 < N)%nat -> nth (N - 1) (time_grid base start stop N) 0 == base + stop).
Proof.
  intros HN. unfold time_grid.
  assert (Hnth : forall i, (i < N)%nat ->
     nth i (obstimes base (linspace start stop N)) 0
     == base + start
        + inject_Z (Z.of_nat i) * ((stop - start) / inject_Z (Z.of_nat (N - 1)))).
  { intros i Hi. rewrite nth_obstimes by now rewrite length_linspace.
    rewrite nth_linspace by assumption. ring. }
  split; [now rewrite length_obstimes, length_linspace|].
  split; [exact Hnth|].
  split; [|split].
  - intros i Hi. rewrite !Hnth by lia. rewrite inject_nat_succ. ring.
  - rewrite Hnth by lia. cbn [Z.of_nat]. ring.
  - intros H1. rewrite nth_obstimes by (rewrite length_linspace; lia).
    now rewrite nth_linspace_last.
Qed.

(** The night window of the script: 100 instants from two hours before
    local midnight to ten hours after it. *)
Lemma time_grid_night_window :
  (1 <= 100)%nat /\
  length (time_grid (midnight notebook_inputs) (-2) 10 100) = 100%nat /\
  nth 0 (time_grid (midnight notebook_inputs) (-2) 10 100) 0
    == midnight notebook_inputs - 2 /\
  nth 99 (time_grid (midnight notebook_inputs) (-2) 10 100) 0
    == midnight notebook_inputs + 10.
Proof.
  assert (H100 : (1 <= 100)%nat) by lia.
  destruct (time_grid_evenly_spaced (midnight notebook_inputs) (-2) 10 100 H100)
    as (Hlen & _ & _ & Hfirst & Hlast).
  split; [exact H100|]. split; [exact Hlen|]. split.
  - rewrite Hfirst. ring.
  - apply Hlast. lia.
Defined.

End TimeGrids.

(** ** Day, twilight and night *)

Section Shading.
Local Open Scope R_scope.

Lemma Rltb_true (x y : R) : Rltb x y = true <-> x < y.
Proof. unfold Rltb. destruct (Rlt_dec x y); split; intros; (easy || lra). Qed.

Lemma Rltb_false (x y : R) : Rltb x y = false <-> y <= x.
Proof. unfold Rltb. destruct (Rlt_dec x y); split; intros; (easy || lra). Qed.

Lemma Rleb_true (x y : R) : Rleb x y = true <-> x <= y.
Proof. unfold Rleb. destruct (Rle_dec x y); split; intros; (easy || lra). Qed.

Lemma Rleb_false (x y : R) : Rleb x y = false <-> y < x.
Proof. unfold Rleb. destruct (Rle_dec x y); split; intros; (easy || lra). Qed.

(** Decide the two comparisons of [classify] on a sample. *)
Ltac split_masks a :=
  destruct (Rlt_dec a (- 0)) as [?Hgrey|?Hgrey];
  destruct (Rlt_dec a (- 18)) as [?Hblack|?Hblack].

Lemma classify_daylight (c : HorizonCoordinate) : classify c = Daylight <-> 0 <= alt c.
Proof.
  unfold classify, shade, class_of_shade, Rltb.
  split_masks (alt c); split; intros H; (discriminate || reflexivity || lra).
Qed.

Lemma classify_twilight (c : HorizonCoordinate) :
  classify c = Twilight <-> -18 <= alt c < 0.
Proof.
  unfold classify, shade, class_of_shade, Rltb.
  split_masks (alt c); split; intros H; (discriminate || reflexivity || lra).
Qed.

Lemma classify_night (c : HorizonCoordinate) : classify c = Night <-> alt c < -18.
Proof.
  unfold classify, shade, class_of_shade, Rltb.
  split_masks (alt c); split; intros H; (discriminate || reflexivity || lra).
Qed.

Lemma classification_pointwise (sunaltazs : list HorizonCoordinate) :
  classification sunaltazs = map classify sunaltazs.
Proof.
  unfold classification, below_horizon_mask, night_mask.
  induction sunaltazs as [|c rest IH]; [reflexivity|].
  cbn [map combine fst snd]. now rewrite IH.
Qed.

(** C1, as the code has it.  Every sample of the Sun's series gets exactly
    one class (the classification is a function of the sample): daylight
    when the altitude is at least 0 degrees, twilight when it is at least
    -18 and below 0 degrees, night when it is below -18 degrees.  A sample at
    exactly 0 degrees is daylight. *)
Theorem classification_thresholds (sunaltazs : list HorizonCoordinate) :
  classification sunaltazs = map classify sunaltazs /\
  length (classification sunaltazs) = length sunaltazs /\
  (forall c, In c sunaltazs ->
     (classify c = Daylight <-> 0 <= alt c) /\
     (classify c = Twilight <-> -18 <= alt c < 0) /\
     (classify c = Night <-> alt c < -18)) /\
  (forall az0, classify (mkHorizon 0 az0) = Daylight).
Proof.
  split; [apply classification_pointwise|].
  split; [now rewrite classification_pointwise, length_map|].
  split.
  - intros c _. split; [apply classify_daylight|].
    split; [apply classify_twilight | apply classify_night].
  - intros az0. apply classify_daylight. cbn. lra.
Qed.

(** At exactly -18 degrees the black fill's condition [alt < -18] is false
    and the grey fill's [alt < 0] is true: the sample is shaded as twilight,
    where the thresholds as worded make it night. *)
Lemma classification_at_minus_18 :
  night_mask [mkHorizon (-18) 0] = [false] /\
  below_horizon_mask [mkHorizon (-18) 0] = [true] /\
  classification [mkHorizon (-18) 0] = [Twilight] /\
  classify_spec (mkHorizon (-18) 0) = Night /\
  classify (mkHorizon (-18) 0) <> classify_spec (mkHorizon (-18) 0).
Proof.
  assert (Hb : Rltb (-18) (- 18) = false) by (apply Rltb_false; lra).
  assert (Hg : Rltb (-18) (- 0) = true) by (apply Rltb_true; lra).
  assert (Hs : classify_spec (mkHorizon (-18) 0) = Night).
  { unfold classify_spec. cbn [alt].
    replace (Rleb 0 (-18)) with false by (symmetry; apply Rleb_false; lra).
    replace (Rleb (-18) (- 18)) with true by (symmetry; apply Rleb_true; lra).
    reflexivity. }
  split; [|split; [|split; [|split]]].
  - unfold night_mask. cbn [map alt]. now rewrite Hb.
  - unfold below_horizon_mask. cbn [map alt]. now rewrite Hg.
  - rewrite classification_pointwise. unfold classify. cbn [map alt].
    now rewrite Hb, Hg.
  - exact Hs.
  - rewrite Hs. unfold classify. cbn [alt]. rewrite Hb, Hg. discriminate.
Qed.

Lemma nth_mask (thr : R) (sunaltazs : list HorizonCoordinate) (i : nat) :
  nth i (map (fun c => Rltb (alt c) thr) sunaltazs) false = true ->
  exists c, nth_error sunaltazs i = Some c /\ alt c < thr.
Proof.
  revert i. induction sunaltazs as [|c rest IH]; intros i H.
  - destruct i; discriminate.
  - destruct i as [|i].
    + exists c. split; [reflexivity|]. now apply Rltb_true.
    + apply IH. exact H.
Qed.

Lemma mask_nth (thr : R) (sunaltazs : list HorizonCoordinate) (i : nat) (c : HorizonCoordinate) :
  nth_error sunaltazs i = Some c -> alt c < thr ->
  nth i (map (fun c => Rltb (alt c) thr) sunaltazs) false = true.
Proof.
  revert i. induction sunaltazs as [|c' rest IH]; intros i H Hlt.
  - destruct i; discriminate.
  - destruct i as [|i].
    + injection H as ->. now apply Rltb_true.
    + cbn [map nth]. now apply IH.
Qed.

(** C10.  Whatever the Sun's altitude series, a sample that satisfies the
    condition of the black (night) fill satisfies the condition of the grey
    (Sun below the horizon) fill: the samples shaded as night are among
    those shaded as Sun-below-horizon. *)
Theorem night_mask_within_below_horizon_mask
    (sunaltazs : list HorizonCoordinate) (i : nat) :
  nth i (night_mask sunaltazs) false = true ->
  nth i (below_horizon_mask sunaltazs) false = true.
Proof.
  unfold night_mask, below_horizon_mask. intros H.
  destruct (nth_mask _ _ _ H) as (c & Hc & Hlt).
  apply (mask_nth _ _ _ c Hc). lra.
Qed.

(** A series with the Sun 30 degrees below the horizon at its second
    sample. *)
Lemma night_mask_within_below_horizon_mask_example :
  nth 1 (night_mask [mkHorizon 10 90; mkHorizon (-30) 350]) false = true /\
  nth 1 (below_horizon_mask [mkHorizon 10 90; mkHorizon (-30) 350]) false = true.
Proof.
  assert (H : nth 1 (night_mask [mkHorizon 10 90; mkHorizon (-30) 350]) false = true).
  { unfold night_mask. cbn [map nth alt]. apply Rltb_true. lra. }
  split; [exact H|].
  exact (night_mask_within_below_horizon_mask _ 1%nat H).
Defined.

End Shading.

(** ** Airmass *)

Section Airmass.
Local Open Scope R_scope.

Lemma deg2rad_zen (c : HorizonCoordinate) :
  deg2rad (zen c) = PI / 2 - deg2rad (alt c).
Proof. unfold deg2rad, zen. field. Qed.

(** The secant of the zenith angle is the cosecant of the altitude. *)
Lemma secz_sin (c : HorizonCoordinate) : secz c = 1 / sin (deg2rad (alt c)).
Proof. unfold secz. now rewrite deg2rad_zen, cos_shift. Qed.

Lemma deg2rad_lt (a b : R) : a < b -> deg2rad a < deg2rad b.
Proof.
  intros H. unfold deg2rad. pose proof PI_RGT_0 as Hpi.
  apply Rmult_lt_compat_r; [lra|]. apply Rmult_lt_compat_r; lra.
Qed.

Lemma deg2rad_le (a b : R) : a <= b -> deg2rad a <= deg2rad b.
Proof.
  intros [H| ->]; [left; now apply deg2rad_lt | right; reflexivity].
Qed.

Lemma deg2rad_0 : deg2rad 0 = 0.
Proof. unfold deg2rad. field. Qed.

Lemma deg2rad_90 : deg2rad 90 = PI / 2.
Proof. unfold deg2rad. field. Qed.

Lemma deg2rad_opp (a : R) : deg2rad (- a) = - deg2rad a.
Proof. unfold deg2rad. field. Qed.

(** Above the horizon the sine of the altitude lies in [(0,1]]. *)
Lemma sin_alt_above (a : R) : 0 < a -> a <= 90 -> 0 < sin (deg2rad a) <= 1.
Proof.
  intros H0 H90. pose proof PI_RGT_0 as Hpi.
  pose proof (deg2rad_lt _ _ H0) as Hlo. rewrite deg2rad_0 in Hlo.
  pose proof (deg2rad_le _ _ H90) as Hhi. rewrite deg2rad_90 in Hhi.
  split; [apply sin_gt_0; lra | apply SIN_bound].
Qed.

Lemma secz_above (c : HorizonCoordinate) : 0 < alt c -> alt c <= 90 -> 1 <= secz c.
Proof.
  intros H0 H90. rewrite secz_sin.
  destruct (sin_alt_above _ H0 H90) as [Hpos Hle].
  apply (Rmult_le_reg_r (sin (deg2rad (alt c)))); [exact Hpos|].
  replace (1 / sin (deg2rad (alt c)) * sin (deg2rad (alt c))) with 1 by (field; lra).
  lra.
Qed.

Lemma secz_at_90 (az0 : R) : secz (mkHorizon 90 az0) = 1.
Proof. rewrite secz_sin. cbn [alt]. rewrite deg2rad_90, sin_PI2. field. Qed.

(** C4.  Between the horizon and the zenith the airmass strictly decreases
    as the altitude increases. *)
Theorem secz_strictly_decreasing (c1 c2 : HorizonCoordinate) :
  0 < alt c1 -> alt c1 < alt c2 -> alt c2 <= 90 ->
  secz c2 < secz c1.
Proof.
  intros H0 H12 H90. rewrite !secz_sin.
  pose proof PI_RGT_0 as Hpi.
  destruct (sin_alt_above (alt c1) H0 ltac:(lra)) as [Hs1 _].
  destruct (sin_alt_above (alt c2) ltac:(lra) H90) as [Hs2 _].
  pose proof (deg2rad_lt _ _ H0) as Hlo. rewrite deg2rad_0 in Hlo.
  pose proof (deg2rad_le _ _ H90) as Hhi. rewrite deg2rad_90 in Hhi.
  pose proof (deg2rad_lt _ _ H12) as Hlt.
  assert (Hsin : sin (deg2rad (alt c1)) < sin (deg2rad (alt c2))).
  { apply sin_increasing_1; lra. }
  unfold Rdiv. rewrite !Rmult_1_l.
  apply Rinv_lt_contravar; [|exact Hsin].
  apply Rmult_lt_0_compat; assumption.
Qed.

(** The airmass at 90 degrees is below the airmass at 30 degrees. *)
Lemma secz_strictly_decreasing_example :
  0 < alt (mkHorizon 30 120) /\
  alt (mkHorizon 30 120) < alt (mkHorizon 90 0) /\
  alt (mkHorizon 90 0) <= 90 /\
  secz (mkHorizon 90 0) < secz (mkHorizon 30 120).
Proof.
  assert (H0 : 0 < alt (mkHorizon 30 120)) by (cbn; lra).
  assert (H12 : alt (mkHorizon 30 120) < alt (mkHorizon 90 0)) by (cbn; lra).
  assert (H90 : alt (mkHorizon 90 0) <= 90) by (cbn; lra).
  split; [exact H0|]. split; [exact H12|]. split; [exact H90|].
  exact (secz_strictly_decreasing _ _ H0 H12 H90).
Defined.

End Airmass.

(** ** The horizon transform *)

Section HorizonTransform.
Local Open Scope R_scope.

Lemma rad2deg_le (a b : R) : a <= b -> rad2deg a <= rad2deg b.
Proof.
  intros H. unfold rad2deg, Rdiv. pose proof PI_RGT_0 as Hpi.
  apply Rmult_le_compat_r; [left; now apply Rinv_0_lt_compat|].
  apply Rmult_le_compat_r; lra.
Qed.

Lemma rad2deg_half_pi : rad2deg (PI / 2) = 90.
Proof. unfold rad2deg. field. apply PI_neq0. Qed.

Lemma rad2deg_opp (a : R) : rad2deg (- a) = - rad2deg a.
Proof. unfold rad2deg. field. apply PI_neq0. Qed.

(** The wrapped angle lies in [[0,360)]. *)
Lemma wrap360_range (x : R) : 0 <= wrap360 x < 360.
Proof.
  unfold wrap360. pose proof (Zfloor_bound (x / 360)) as [Hlo Hhi]. lra.
Qed.

(** Wrapping forgets whole turns. *)
Lemma wrap360_turns (x : R) (k : Z) : wrap360 (x + 360 * IZR k) = wrap360 x.
Proof.
  unfold wrap360.
  replace ((x + 360 * IZR k) / 360) with (x / 360 + IZR k) by field.
  rewrite Zfloor_addz, plus_IZR. ring.
Qed.

(** An angle already in [[0,360)] is its own representative. *)
Lemma wrap360_fixed (x : R) : 0 <= x < 360 -> wrap360 x = x.
Proof.
  intros [Hlo Hhi]. unfold wrap360.
  rewrite (Zfloor_eq 0 (x / 360)) by lra. ring.
Qed.

Lemma wrap360_idempotent (x : R) : wrap360 (wrap360 x) = wrap360 x.
Proof. apply wrap360_fixed, wrap360_range. Qed.

Lemma horizon_transform_alt_range (gmst : Time -> R)
    (obs : ObserverLocation) (sky : SkyPosition) (t : Time) :
  -90 <= alt (horizon_transform gmst obs sky t) <= 90.
Proof.
  unfold horizon_transform. cbn [alt].
  match goal with |- _ <= rad2deg (asin ?x) <= _ =>
    pose proof (asin_bound x) as [Hlo Hhi]; set (a := asin x) in * end.
  split.
  - replace (-90) with (rad2deg (- (PI / 2))) by (now rewrite rad2deg_opp, rad2deg_half_pi).
    now apply rad2deg_le.
  - rewrite <- rad2deg_half_pi. now apply rad2deg_le.
Qed.

Lemma horizon_transform_az_range (gmst : Time -> R)
    (obs : ObserverLocation) (sky : SkyPosition) (t : Time) :
  0 <= az (horizon_transform gmst obs sky t) < 360.
Proof. unfold horizon_transform. cbn [az]. apply wrap360_range. Qed.

Lemma horizon_transform_rewrap (gmst : Time -> R)
    (obs : ObserverLocation) (sky : SkyPosition) (t : Time) (k : Z) :
  rewrap k (horizon_transform gmst obs sky t) = horizon_transform gmst obs sky t.
Proof.
  pose proof (horizon_transform_az_range gmst obs sky t) as Haz.
  destruct (horizon_transform gmst obs sky t) as [a z]. cbn [az] in Haz.
  unfold rewrap. cbn [alt az].
  now rewrite wrap360_turns, wrap360_fixed.
Qed.

Lemma horizon_transform_well_ranged (gmst : Time -> R)
    (obs : ObserverLocation) (sky : SkyPosition) (t : Time) :
  well_ranged (horizon_transform gmst obs sky t).
Proof.
  split; [apply horizon_transform_alt_range|].
  split; [apply horizon_transform_az_range|].
  intros k. split; [reflexivity | apply horizon_transform_rewrap].
Qed.

(** C5.  For every observer location, sky position and instant, the
    horizon coordinate of the closed-form transform has its altitude in
    [[-90,90]] and its azimuth in [[0,360)]; writing the azimuth any number of
    whole turns further round and wrapping it again gives back the same
    coordinate, the altitude in particular.  The same holds for every sample
    of a series, for a fixed position and for an ephemeris body. *)
Theorem horizon_transform_ranges (gmst : Time -> R) :
  (forall (obs : ObserverLocation) (sky : SkyPosition) (t : Time),
     -90 <= alt (horizon_transform gmst obs sky t) <= 90 /\
     0 <= az (horizon_transform gmst obs sky t) < 360 /\
     (forall k : Z,
        alt (rewrap k (horizon_transform gmst obs sky t))
          = alt (horizon_transform gmst obs sky t) /\
        rewrap k (horizon_transform gmst obs sky t)
          = horizon_transform gmst obs sky t)) /\
  (forall (c : SkyCoord) (frame : AltAz),
     Forall well_ranged (transform_closed_form gmst c frame)).
Proof.
  split.
  - intros obs sky t. apply horizon_transform_well_ranged.
  - intros c frame. apply Forall_forall. intros h Hin.
    destruct c as [p|ps]; cbn [transform_closed_form] in Hin;
      apply in_map_iff in Hin as (x & <- & _);
      apply horizon_transform_well_ranged.
Qed.

End HorizonTransform.

(** ** Civil time and the declared offset *)

Section CivilTime.
Local Open Scope Q_scope.

(** The calendar formula on known days: the origin of the Modified Julian
    Date, the first day of 2000, and the two days of the script. *)
Lemma cal2jd_known_days :
  cal2jd 1858 11 17 = 0%Z /\ cal2jd 2000 1 1 = 51544%Z /\
  cal2jd 2012 7 12 = 56120%Z /\ cal2jd 2012 7 13 = 56121%Z.
Proof. repeat split; reflexivity. Qed.

(** A small grid, evaluated. *)
Lemma linspace_five : map Qred (linspace (-2) 10 5) = [-2; 1; 4; 7; 10].
Proof. reflexivity. Qed.

(** C6.  The instants handed to the transform engine are the local civil
    instants minus the declared offset: the visit time, and every sample of
    both grids, by the same offset.  With the script's values, local
    2012-07-12 23:00 at offset -4 h is the instant 2012-07-13 03:00. *)
Theorem utcoffset_applied_to_every_sample (i : Inputs) (loc : ObserverLocation) :
  obstime (frame_visit i loc) = [Time_iso (visit_time i) - utcoffset i] /\
  length (obstime (frame_July13night i loc)) = night_num i /\
  (forall k, (k < night_num i)%nat ->
     nth k (obstime (frame_July13night i loc)) 0
     == (Time_iso (local_midnight i)
         + nth k (linspace (night_start i) (night_stop i) (night_num i)) 0)
        - utcoffset i) /\
  length (obstime (frame_July12_to_13 i loc)) = full_num i /\
  (forall k, (k < full_num i)%nat ->
     nth k (obstime (frame_July12_to_13 i loc)) 0
     == (Time_iso (local_midnight i)
         + nth k (linspace (full_start i) (full_stop i) (full_num i)) 0)
        - utcoffset i) /\
  Time_iso (mkCivil 2012 7 12 23 0 0) - (-4) == Time_iso (mkCivil 2012 7 13 3 0 0) /\
  time notebook_inputs == Time_iso (mkCivil 2012 7 13 3 0 0).
Proof.
  split; [reflexivity|].
  split; [cbn [frame_July13night obstime]; now rewrite length_obstimes, length_linspace|].
  split.
  { intros k Hk. cbn [frame_July13night obstime].
    rewrite nth_obstimes by now rewrite length_linspace.
    unfold midnight, time_sub. ring. }
  split; [cbn [frame_July12_to_13 obstime]; unfold times_July12_to_13;
          now rewrite length_obstimes, length_linspace|].
  split.
  { intros k Hk. cbn [frame_July12_to_13 obstime]. unfold times_July12_to_13.
    rewrite nth_obstimes by now rewrite length_linspace.
    unfold midnight, time_sub. ring. }
  split; reflexivity.
Qed.

End CivilTime.

(** ** Runs of the script *)

Section Runs.
Local Open Scope R_scope.

Lemma EarthLocation_in_range (lat lon h : R) :
  -90 <= lat <= 90 -> -180 <= lon < 360 ->
  EarthLocation lat lon h = Ok (mkLocation lat lon h).
Proof.
  intros [H1 H2] [H3 H4]. unfold EarthLocation.
  apply Rleb_true in H1, H2, H3. apply Rltb_true in H4.
  now rewrite H1, H2, H3, H4.
Qed.

Lemma EarthLocation_bad_latitude (lat lon h : R) :
  lat < -90 \/ 90 < lat ->
  EarthLocation lat lon h = Err InvalidLocationError.
Proof.
  intros H. unfold EarthLocation.
  destruct H as [H|H]; apply Rleb_false in H; rewrite H.
  - reflexivity.
  - now rewrite andb_false_r.
Qed.

(** A value of [EarthLocation] is the triple it was given. *)
Lemma EarthLocation_Ok (lat lon h : R) (loc : ObserverLocation) :
  EarthLocation lat lon h = Ok loc -> loc = mkLocation lat lon h.
Proof.
  unfold EarthLocation.
  destruct (_ && _); intros H; now inversion H.
Qed.

Lemma EarthLocation_Err (lat lon h : R) (e : Error) :
  EarthLocation lat lon h = Err e -> e = InvalidLocationError.
Proof.
  unfold EarthLocation.
  destruct (_ && _); intros H; now inversion H.
Qed.

(** *** The run, step by step *)

(** The run under given answers of the collaborators.  [run_steps] unfolds
    the script and feeds it the answers one at a time. *)
Ltac run_steps :=
  unfold run, bind, call, lift, emit;
  repeat match goal with
         | H : _ = Ok _ |- _ => rewrite H; clear H; cbv beta iota zeta
         | H : _ = Err _ |- _ => rewrite H; clear H; cbv beta iota zeta
         end;
  try reflexivity.

Variable w : World.
Variable i : Inputs.

Lemma run_from_name_fails (e : Error) :
  from_name w (target_name i) = Err e ->
  run w i = ([CallFromName (target_name i)], Err e).
Proof. intros H1. run_steps. Qed.

Lemma run_location_fails (m33 : SkyCoord) (e : Error) :
  from_name w (target_name i) = Ok m33 ->
  EarthLocation (site_lat i) (site_lon i) (site_height i) = Err e ->
  run w i = ([CallFromName (target_name i)], Err e).
Proof. intros H1 H2. run_steps. Qed.

Lemma run_visit_fails (m33 : SkyCoord) (loc : ObserverLocation) (e : Error) :
  from_name w (target_name i) = Ok m33 ->
  EarthLocation (site_lat i) (site_lon i) (site_height i) = Ok loc ->
  transform_to w m33 (frame_visit i loc) = Err e ->
  run w i = ([CallFromName (target_name i); CallTransform m33 (frame_visit i loc)], Err e).
Proof. intros H1 H2 H3. run_steps. Qed.

(** *** Where a run can end *)

(** Ask the collaborators, in script order, for their answers. *)
Ltac ask_world :=
  unfold run, bind, call, lift, emit; cbv beta iota zeta;
  repeat match goal with
         | |- context [match ?r with Ok _ => _ | Err _ => _ end] =>
             destruct r eqn:?; cbv beta iota zeta
         end.

Ltac show_trace :=
  cbn [trace outcome plots fst snd app filter is_plot is_call removelast last].

(** The first call that raises is where a trace that stops at failures
    ends. *)
Lemma stops_at_failure_split (tr before after : list Event) (c : Event)
    (out : result unit) (e : Error) :
  stops_at_failure w tr out ->
  tr = before ++ c :: after -> failure w c = Some e ->
  after = [] /\ out = Err e /\ Forall (fun c' => failure w c' = None) before.
Proof.
  revert tr. induction before as [|c1 before' IH]; intros tr Hstop -> Hc.
  - cbn [app stops_at_failure] in Hstop. rewrite Hc in Hstop.
    destruct Hstop as [-> ->]. repeat split. constructor.
  - cbn [app stops_at_failure] in Hstop.
    destruct (failure w c1) as [e1|] eqn:H1.
    + destruct Hstop as [Hnil _]. destruct before'; discriminate Hnil.
    + destruct (IH _ Hstop eq_refl Hc) as (Ha & Ho & Hf).
      repeat split; [assumption..|]. now constructor.
Qed.

Lemma run_stops_at_failure :
  stops_at_failure w (trace (run w i)) (outcome (run w i)).
Proof.
  ask_world; show_trace.
  all: repeat first
         [ progress cbn [stops_at_failure failure error_of]
         | match goal with
           | H : _ = Ok _ |- _ => rewrite H
           | H : _ = Err _ |- _ => rewrite H
           end ].
  all: first [ exact I | split; reflexivity ].
Qed.

(** C8, as the code has it.  A call that raises ends the run: nothing
    follows it in the trace, the outcome of the run is its error, and every
    call before it had answered, so nothing is recovered and nothing is asked
    again.  A name that does not resolve ends the run at its first step, an
    out-of-range latitude right after it.  A run that fails never shows the
    altitude figure and shows at most the airmass figure; the airmass figure
    is shown exactly by the runs that reach the request for the Sun's
    ephemeris, so a failure before that request leaves no figure and a
    failure from that request on comes after the airmass figure. *)
Theorem errors_end_the_run (e : Error) :
  (forall before c after,
     trace (run w i) = before ++ c :: after -> failure w c = Some e ->
     after = [] /\ outcome (run w i) = Err e /\
     Forall (fun c' => failure w c' = None) before) /\
  (from_name w (target_name i) = Err e ->
   run w i = ([CallFromName (target_name i)], Err e)) /\
  (site_lat i < -90 \/ 90 < site_lat i ->
   forall m33, from_name w (target_name i) = Ok m33 ->
     run w i = ([CallFromName (target_name i)], Err InvalidLocationError)) /\
  (outcome (run w i) = Err e ->
   (forall p, ~ In (ShowAltitude p) (trace (run w i))) /\
   (plots (run w i) = [] \/ exists p, plots (run w i) = [ShowAirmass p])) /\
  ((exists p, In (ShowAirmass p) (trace (run w i)))
   <-> (exists times, In (CallGetSun times) (trace (run w i)))).
Proof.
  split; [|split; [|split; [|split]]].
  - intros before c after Htr Hc.
    exact (stops_at_failure_split _ _ _ _ _ _ run_stops_at_failure Htr Hc).
  - apply run_from_name_fails.
  - intros Hlat m33 Hname.
    apply (run_location_fails _ _ Hname).
    now apply EarthLocation_bad_latitude.
  - ask_world; show_trace; intros Hout; try discriminate Hout.
    all: split;
      [ intros p Hin; cbn [In] in Hin;
        repeat (destruct Hin as [Hin|Hin]; [discriminate Hin|]); exact Hin
      | first [ left; reflexivity | right; eexists; reflexivity ] ].
  - ask_world; show_trace; split; intros [x Hin]; cbn [In] in Hin.
    all: try (repeat (destruct Hin as [Hin|Hin]; [discriminate Hin|]); now destruct Hin).
    all: eexists; cbn [In].
    all: first [ do 4 right; left; reflexivity | do 5 right; left; reflexivity ].
Qed.

(** The run up to the transform of the Sun, which raises. *)
Lemma run_sun_transform_fails (m33 sun : SkyCoord) (loc : ObserverLocation)
    (m33altaz m33altazs : list HorizonCoordinate) (e : Error) :
  from_name w (target_name i) = Ok m33 ->
  EarthLocation (site_lat i) (site_lon i) (site_height i) = Ok loc ->
  transform_to w m33 (frame_visit i loc) = Ok m33altaz ->
  transform_to w m33 (frame_July13night i loc) = Ok m33altazs ->
  get_sun w (times_July12_to_13 i) = Ok sun ->
  transform_to w sun (frame_July12_to_13 i loc) = Err e ->
  run w i =
    ([CallFromName (target_name i);
      CallTransform m33 (frame_visit i loc);
      Printed (map alt m33altaz);
      CallTransform m33 (frame_July13night i loc);
      ShowAirmass
        {| airmass_hours := linspace (night_start i) (night_stop i) (night_num i);
           airmass_values := map secz m33altazs |};
      CallGetSun (times_July12_to_13 i);
      CallTransform sun (frame_July12_to_13 i loc)],
     Err e).
Proof. intros H1 H2 H3 H4 H5 H6. run_steps. Qed.

(** The whole run when every collaborator answers. *)
Lemma run_succeeds (m33 sun moon : SkyCoord) (loc : ObserverLocation)
    (m33altaz m33altazs sunaltazs moonaltazs m33altazs' : list HorizonCoordinate) :
  from_name w (target_name i) = Ok m33 ->
  EarthLocation (site_lat i) (site_lon i) (site_height i) = Ok loc ->
  transform_to w m33 (frame_visit i loc) = Ok m33altaz ->
  transform_to w m33 (frame_July13night i loc) = Ok m33altazs ->
  get_sun w (times_July12_to_13 i) = Ok sun ->
  transform_to w sun (frame_July12_to_13 i loc) = Ok sunaltazs ->
  get_body w "moon" (times_July12_to_13 i) = Ok moon ->
  transform_to w moon (frame_July12_to_13 i loc) = Ok moonaltazs ->
  transform_to w m33 (frame_July12_to_13 i loc) = Ok m33altazs' ->
  run w i =
    ([CallFromName (target_name i);
      CallTransform m33 (frame_visit i loc);
      Printed (map alt m33altaz);
      CallTransform m33 (frame_July13night i loc);
      ShowAirmass
        {| airmass_hours := linspace (night_start i) (night_stop i) (night_num i);
           airmass_values := map secz m33altazs |};
      CallGetSun (times_July12_to_13 i);
      CallTransform sun (frame_July12_to_13 i loc);
      CallGetBody "moon" (times_July12_to_13 i);
      CallTransform moon (frame_July12_to_13 i loc);
      CallTransform m33 (frame_July12_to_13 i loc);
      ShowAltitude (altitude_plot i sunaltazs moonaltazs m33altazs')],
     Ok tt).
Proof. intros H1 H2 H3 H4 H5 H6 H7 H8 H9. run_steps. Qed.

(** A run that ends normally has had every answer. *)
Lemma run_Ok_inv :
  outcome (run w i) = Ok tt ->
  exists m33 sun moon loc m33altaz m33altazs sunaltazs moonaltazs m33altazs',
    from_name w (target_name i) = Ok m33 /\
    EarthLocation (site_lat i) (site_lon i) (site_height i) = Ok loc /\
    transform_to w m33 (frame_visit i loc) = Ok m33altaz /\
    transform_to w m33 (frame_July13night i loc) = Ok m33altazs /\
    get_sun w (times_July12_to_13 i) = Ok sun /\
    transform_to w sun (frame_July12_to_13 i loc) = Ok sunaltazs /\
    get_body w "moon" (times_July12_to_13 i) = Ok moon /\
    transform_to w moon (frame_July12_to_13 i loc) = Ok moonaltazs /\
    transform_to w m33 (frame_July12_to_13 i loc) = Ok m33altazs'.
Proof.
  ask_world; show_trace; intros Hout; try discriminate Hout.
  do 9 eexists. repeat split; (eassumption || reflexivity).
Qed.

(** The Sun, the Moon and the target are transformed into one frame: the
    site and the noon-to-noon instants, [full_num] of them; the figure shows
    the three answers. *)
Lemma shared_frame :
  outcome (run w i) = Ok tt ->
  exists m33 sun moon loc sunaltazs moonaltazs m33altazs,
    location (frame_July12_to_13 i loc) = loc /\
    obstime (frame_July12_to_13 i loc) = times_July12_to_13 i /\
    length (times_July12_to_13 i) = full_num i /\
    get_sun w (times_July12_to_13 i) = Ok sun /\
    get_body w "moon" (times_July12_to_13 i) = Ok moon /\
    transform_to w sun (frame_July12_to_13 i loc) = Ok sunaltazs /\
    transform_to w moon (frame_July12_to_13 i loc) = Ok moonaltazs /\
    transform_to w m33 (frame_July12_to_13 i loc) = Ok m33altazs /\
    last (trace (run w i)) (CallFromName EmptyString)
      = ShowAltitude (altitude_plot i sunaltazs moonaltazs m33altazs) /\
    (sample_per_obstime w ->
       length sunaltazs = full_num i /\
       length moonaltazs = full_num i /\
       length m33altazs = full_num i).
Proof.
  intros Hout.
  destruct (run_Ok_inv Hout)
    as (m33 & sun & moon & loc & a1 & a2 & sa & ma & ta
        & H1 & H2 & H3 & H4 & H5 & H6 & H7 & H8 & H9).
  assert (Hlen : length (times_July12_to_13 i) = full_num i).
  { unfold times_July12_to_13. now rewrite length_obstimes, length_linspace. }
  exists m33, sun, moon, loc, sa, ma, ta.
  do 8 (split; [assumption || reflexivity|]).
  split.
  - rewrite (run_succeeds _ _ _ _ _ _ _ _ _ H1 H2 H3 H4 H5 H6 H7 H8 H9).
    reflexivity.
  - intros Hper. rewrite <- Hlen.
    repeat split; eapply (Hper _ (frame_July12_to_13 i loc)); eassumption.
Qed.

(** C7.  A latitude outside [[-90,90]] makes the Observer Frame Builder
    fail with [InvalidLocationError]: no location is built, the run ends
    right after the name resolution, with that error when the name had
    resolved, and nothing is printed or plotted.  In-range inputs build the
    location. *)
Theorem invalid_latitude_no_output :
  site_lat i < -90 \/ 90 < site_lat i ->
  EarthLocation (site_lat i) (site_lon i) (site_height i) = Err InvalidLocationError /\
  (forall loc, EarthLocation (site_lat i) (site_lon i) (site_height i) <> Ok loc) /\
  trace (run w i) = [CallFromName (target_name i)] /\
  plots (run w i) = [] /\
  (forall m33, from_name w (target_name i) = Ok m33 ->
               outcome (run w i) = Err InvalidLocationError) /\
  (forall lat lon h, -90 <= lat <= 90 -> -180 <= lon < 360 ->
                     EarthLocation lat lon h = Ok (mkLocation lat lon h)).
Proof.
  intros Hlat.
  pose proof (EarthLocation_bad_latitude _ (site_lon i) (site_height i) Hlat) as Hbad.
  assert (Htr : trace (run w i) = [CallFromName (target_name i)]).
  { destruct (from_name w (target_name i)) as [m33|e] eqn:Hname.
    - now rewrite (run_location_fails _ _ Hname Hbad).
    - now rewrite (run_from_name_fails _ Hname). }
  split; [exact Hbad|].
  split; [intros loc; rewrite Hbad; discriminate|].
  split; [exact Htr|].
  split; [unfold plots; now rewrite Htr|].
  split.
  - intros m33 Hname. now rewrite (run_location_fails _ _ Hname Hbad).
  - intros lat lon h. apply EarthLocation_in_range.
Qed.

End Runs.

(** ** Runs in particular worlds *)

Section Worlds.
Local Open Scope R_scope.

Lemma transform_checked_ephemeris (gmst : Time -> R)
    (ps : list SkyPosition) (frame : AltAz) :
  length ps = length (obstime frame) ->
  transform_checked gmst (Ephemeris ps) frame
  = Ok (transform_closed_form gmst (Ephemeris ps) frame).
Proof.
  intros H. unfold transform_checked.
  now rewrite H, Nat.eqb_refl.
Qed.

Lemma length_transform_checked (gmst : Time -> R)
    (c : SkyCoord) (frame : AltAz) (r : list HorizonCoordinate) :
  transform_checked gmst c frame = Ok r -> length r = length (obstime frame).
Proof.
  unfold transform_checked. destruct c as [p|ps].
  - intros H. injection H as <-. apply length_map.
  - destruct (Nat.eqb_spec (length ps) (length (obstime frame))) as [Heq|Hne];
      [|discriminate].
    intros H. injection H as <-. cbn [transform_closed_form].
    rewrite length_map, length_combine, Heq. apply Nat.min_id.
Qed.

Lemma planetarium_sample_per_obstime : sample_per_obstime planetarium.
Proof. intros c frame r. apply length_transform_checked. Qed.

Lemma site_of_notebook :
  EarthLocation (site_lat notebook_inputs) (site_lon notebook_inputs)
                (site_height notebook_inputs)
  = Ok (mkLocation 41.3 (-74) 390).
Proof. apply EarthLocation_in_range; cbn; lra. Qed.

(** In the planetarium the script runs to its end. *)
Lemma notebook_in_planetarium : outcome (notebook planetarium) = Ok tt.
Proof.
  unfold notebook.
  erewrite run_succeeds; [reflexivity| ..].
  - reflexivity.
  - apply site_of_notebook.
  - reflexivity.
  - reflexivity.
  - reflexivity.
  - apply transform_checked_ephemeris. cbn [obstime frame_July12_to_13].
    apply length_map.
  - reflexivity.
  - apply transform_checked_ephemeris. cbn [obstime frame_July12_to_13].
    apply length_map.
  - reflexivity.
Qed.

(** C9.  When the script runs to its end, the Sun, the Moon and M33 have
    been transformed into one and the same frame: the site of the script and
    its 1000 noon-to-noon instants, the instants the two ephemerides were
    asked for.  The altitude figure shows these three series; with an engine
    that answers sample by sample each has 1000 samples. *)
Theorem noon_to_noon_shared_frame (w : World) :
  outcome (notebook w) = Ok tt ->
  exists m33 sun moon loc sunaltazs moonaltazs m33altazs,
    location (frame_July12_to_13 notebook_inputs loc) = loc /\
    obstime (frame_July12_to_13 notebook_inputs loc)
      = times_July12_to_13 notebook_inputs /\
    length (times_July12_to_13 notebook_inputs) = 1000%nat /\
    get_sun w (times_July12_to_13 notebook_inputs) = Ok sun /\
    get_body w "moon" (times_July12_to_13 notebook_inputs) = Ok moon /\
    transform_to w sun (frame_July12_to_13 notebook_inputs loc) = Ok sunaltazs /\
    transform_to w moon (frame_July12_to_13 notebook_inputs loc) = Ok moonaltazs /\
    transform_to w m33 (frame_July12_to_13 notebook_inputs loc) = Ok m33altazs /\
    last (trace (notebook w)) (CallFromName EmptyString)
      = ShowAltitude (altitude_plot notebook_inputs sunaltazs moonaltazs m33altazs) /\
    (sample_per_obstime w ->
       length sunaltazs = 1000%nat /\
       length moonaltazs = 1000%nat /\
       length m33altazs = 1000%nat).
Proof. exact (shared_frame w notebook_inputs). Qed.

(** In the planetarium the three series of the altitude figure have 1000
    samples each, as has its time axis. *)
Lemma noon_to_noon_in_planetarium :
  outcome (notebook planetarium) = Ok tt /\
  exists p,
    last (trace (notebook planetarium)) (CallFromName EmptyString) = ShowAltitude p /\
    length (altitude_hours p) = 1000%nat /\
    length (sun_alt p) = 1000%nat /\
    length (moon_alt p) = 1000%nat /\
    length (m33_alt p) = 1000%nat.
Proof.
  split; [exact notebook_in_planetarium|].
  destruct (noon_to_noon_shared_frame planetarium notebook_in_planetarium)
    as (m33 & sun & moon & loc & sa & ma & ta
        & _ & _ & _ & _ & _ & _ & _ & _ & Hlast & Hlen).
  destruct (Hlen planetarium_sample_per_obstime) as (Hs & Hm & Ht).
  exists (altitude_plot notebook_inputs sa ma ta).
  split; [exact Hlast|].
  cbn [altitude_plot altitude_hours sun_alt moon_alt m33_alt].
  rewrite length_linspace, !length_map.
  repeat split; (reflexivity || assumption).
Defined.

(** The script at latitude 95 degrees. *)
Lemma invalid_latitude_95 :
  (site_lat (at_latitude notebook_inputs 95) < -90
   \/ 90 < site_lat (at_latitude notebook_inputs 95)) /\
  EarthLocation 95 (-74) 390 = Err InvalidLocationError /\
  trace (run planetarium (at_latitude notebook_inputs 95)) = [CallFromName "M33"] /\
  outcome (run planetarium (at_latitude notebook_inputs 95)) = Err InvalidLocationError /\
  plots (run planetarium (at_latitude notebook_inputs 95)) = [].
Proof.
  assert (Hlat : site_lat (at_latitude notebook_inputs 95) < -90
                 \/ 90 < site_lat (at_latitude notebook_inputs 95))
    by (right; cbn; lra).
  destruct (invalid_latitude_no_output planetarium (at_latitude notebook_inputs 95) Hlat)
    as (Hbad & _ & Htr & Hplots & Hout & _).
  split; [exact Hlat|]. split; [exact Hbad|]. split; [exact Htr|].
  split; [|exact Hplots].
  exact (Hout (Fixed (mkSky 23.4621 30.6599)) eq_refl).
Defined.

(** With the resolver unreachable the run ends at its first step and shows
    nothing.  With an engine that raises on the Sun's coordinates the call
    that raises is the last event of the run, whose outcome is the engine's
    error, and the six events before it had not raised. *)
Lemma notebook_offline :
  from_name offline (target_name notebook_inputs) = Err ResolutionError /\
  run offline notebook_inputs = ([CallFromName "M33"], Err ResolutionError) /\
  plots (notebook offline) = [] /\
  exists before c,
    trace (notebook no_ephemeris_transform) = before ++ [c] /\
    length before = 6%nat /\
    failure no_ephemeris_transform c = Some ComputationError /\
    outcome (notebook no_ephemeris_transform) = Err ComputationError /\
    Forall (fun c' => failure no_ephemeris_transform c' = None) before.
Proof.
  assert (Hname : from_name offline (target_name notebook_inputs) = Err ResolutionError)
    by reflexivity.
  destruct (errors_end_the_run offline notebook_inputs ResolutionError)
    as (_ & Hfirst & _).
  split; [exact Hname|]. split; [exact (Hfirst Hname)|].
  split; [unfold notebook, plots; now rewrite (Hfirst Hname)|].
  assert (Hrun := run_sun_transform_fails no_ephemeris_transform notebook_inputs
                    (Fixed (mkSky 23.4621 30.6599))
                    (Ephemeris (map (fun _ => mkSky 111.8 21.9)
                                    (times_July12_to_13 notebook_inputs)))
                    (mkLocation 41.3 (-74) 390) _ _ ComputationError
                    eq_refl site_of_notebook eq_refl eq_refl eq_refl eq_refl).
  destruct (errors_end_the_run no_ephemeris_transform notebook_inputs ComputationError)
    as (Hlast & _).
  assert (Htr : trace (notebook no_ephemeris_transform)
                = removelast (trace (notebook no_ephemeris_transform))
                  ++ [last (trace (notebook no_ephemeris_transform))
                           (CallFromName EmptyString)]).
  { apply app_removelast_last. unfold notebook. rewrite Hrun. discriminate. }
  assert (Hc : failure no_ephemeris_transform
                 (last (trace (notebook no_ephemeris_transform))
                       (CallFromName EmptyString))
               = Some ComputationError)
    by (unfold notebook; rewrite Hrun; reflexivity).
  exists (removelast (trace (notebook no_ephemeris_transform))),
         (last (trace (notebook no_ephemeris_transform)) (CallFromName EmptyString)).
  split; [exact Htr|].
  split; [unfold notebook; rewrite Hrun; reflexivity|].
  split; [exact Hc|].
  destruct (Hlast _ _ _ Htr Hc) as (_ & Hout & Hbefore).
  split; [exact Hout | exact Hbefore].
Defined.

(** With an engine that raises on the Sun's coordinates, the horizon
    transform fails after the airmass figure has been shown: the run ends
    with the engine's error and has produced a plot. *)
Lemma airmass_shown_before_transform_fails :
  (exists sun,
     get_sun no_ephemeris_transform (times_July12_to_13 notebook_inputs) = Ok sun /\
     transform_to no_ephemeris_transform sun
       (frame_July12_to_13 notebook_inputs (mkLocation 41.3 (-74) 390))
     = Err ComputationError) /\
  outcome (notebook no_ephemeris_transform) = Err ComputationError /\
  (exists p, plots (notebook no_ephemeris_transform) = [ShowAirmass p]) /\
  plots (notebook no_ephemeris_transform) <> [].
Proof.
  assert (Hrun := run_sun_transform_fails no_ephemeris_transform notebook_inputs
                    (Fixed (mkSky 23.4621 30.6599))
                    (Ephemeris (map (fun _ => mkSky 111.8 21.9)
                                    (times_July12_to_13 notebook_inputs)))
                    (mkLocation 41.3 (-74) 390) _ _ ComputationError
                    eq_refl site_of_notebook eq_refl eq_refl eq_refl eq_refl).
  split; [eexists; split; reflexivity|].
  unfold notebook. rewrite Hrun.
  split; [reflexivity|].
  split; [eexists; reflexivity | discriminate].
Qed.

End Worlds.

(** ** More on time grids *)

Section GridShape.
Local Open Scope Q_scope.

Lemma nth_time_grid (base : Time) (start stop : Q) (num i : nat) :
  (i < num)%nat ->
  nth i (time_grid base start stop num) 0
  == base + (start
             + inject_Z (Z.of_nat i) * ((stop - start) / inject_Z (Z.of_nat (num - 1)))).
Proof.
  intros Hi. unfold time_grid.
  rewrite nth_obstimes by now rewrite length_linspace.
  now rewrite nth_linspace.
Qed.

(** X4.  A degenerate range raises nothing: with [start == stop] every one
    of the [N] instants of the grid is [base + start]. *)
Theorem time_grid_degenerate_range (base : Time) (start stop : Q) (N i : nat) :
  start == stop -> (i < N)%nat ->
  length (time_grid base start stop N) = N /\
  nth i (time_grid base start stop N) 0 == base + start.
Proof.
  intros Heq Hi. split.
  - unfold time_grid. now rewrite length_obstimes, length_linspace.
  - rewrite nth_time_grid by assumption.
    setoid_replace (stop - start) with 0 by (rewrite Heq; ring).
    unfold Qdiv. ring.
Qed.

(** Seven instants from 3 h to 3 h after the base: the fifth is [base + 3]. *)
Lemma time_grid_degenerate_example :
  3 == 3 /\ (4 < 7)%nat /\
  length (time_grid 0 3 3 7) = 7%nat /\ nth 4 (time_grid 0 3 3 7) 0 == 0 + 3.
Proof.
  assert (H1 : 3 == 3) by reflexivity.
  assert (H2 : (4 < 7)%nat) by lia.
  split; [exact H1|]. split; [exact H2|].
  exact (time_grid_degenerate_range 0 3 3 7 4 H1 H2).
Defined.

End GridShape.

(** ** More on the shading and the axes *)

Section ShadingAndAxes.
Local Open Scope R_scope.

(** X5.  The classes follow the Sun's altitude: of two samples, the lower
    one is night whenever the higher one is, and the higher one is daylight
    whenever the lower one is. *)
Theorem classify_monotone (c1 c2 : HorizonCoordinate) :
  alt c1 <= alt c2 ->
  (classify c2 = Night -> classify c1 = Night) /\
  (classify c2 = Twilight -> classify c1 <> Daylight) /\
  (classify c1 = Daylight -> classify c2 = Daylight).
Proof.
  intros Hle. split; [|split].
  - intros H. apply classify_night in H. apply classify_night. lra.
  - intros H Hd. apply classify_twilight in H. apply classify_daylight in Hd. lra.
  - intros H. apply classify_daylight in H. apply classify_daylight. lra.
Qed.

Lemma classify_monotone_example :
  alt (mkHorizon (-25) 300) <= alt (mkHorizon (-20) 310) /\
  classify (mkHorizon (-20) 310) = Night /\
  classify (mkHorizon (-25) 300) = Night.
Proof.
  assert (Hle : alt (mkHorizon (-25) 300) <= alt (mkHorizon (-20) 310)) by (cbn; lra).
  assert (Hn : classify (mkHorizon (-20) 310) = Night)
    by (apply classify_night; cbn; lra).
  split; [exact Hle|]. split; [exact Hn|].
  exact (proj1 (classify_monotone _ _ Hle) Hn).
Defined.

(** X6.  In the altitude figure the Sun's curve is drawn exactly at the
    unshaded samples: a sample of the Sun lies within the limits of the
    altitude axis if and only if it is classified as daylight.  Wherever
    the figure is shaded grey or black the Sun is clipped. *)
Theorem sun_in_view_iff_daylight (c : HorizonCoordinate) :
  alt c <= 90 ->
  (in_view altitude_ylim (alt c) <-> classify c = Daylight) /\
  (Rltb (alt c) (- 0) = true -> ~ in_view altitude_ylim (alt c)).
Proof.
  intros H90. unfold in_view, altitude_ylim. cbn [fst snd]. split.
  - rewrite classify_daylight. split; [intros [H _]; exact H | intros H; split; assumption].
  - intros Hm. apply Rltb_true in Hm. lra.
Qed.

Lemma sun_in_view_example :
  alt (mkHorizon 35 120) <= 90 /\
  in_view altitude_ylim (alt (mkHorizon 35 120)) /\
  classify (mkHorizon 35 120) = Daylight.
Proof.
  assert (H90 : alt (mkHorizon 35 120) <= 90) by (cbn; lra).
  assert (Hv : in_view altitude_ylim (alt (mkHorizon 35 120)))
    by (unfold in_view; cbn; lra).
  split; [exact H90|]. split; [exact Hv|].
  exact (proj1 (proj1 (sun_in_view_iff_daylight _ H90)) Hv).
Defined.

End ShadingAndAxes.

(** ** More on runs of the script *)

Section RunShape.
Local Open Scope R_scope.

(** A location that was built is the triple it was given, and that triple
    is in range. *)
Lemma EarthLocation_Ok_range (lat lon h : R) (loc : ObserverLocation) :
  EarthLocation lat lon h = Ok loc ->
  loc = mkLocation lat lon h /\ -90 <= lat <= 90 /\ -180 <= lon < 360.
Proof.
  unfold EarthLocation.
  destruct (Rleb (-90) lat) eqn:H1; [|discriminate].
  destruct (Rleb lat 90) eqn:H2; [|discriminate].
  destruct (Rleb (-180) lon) eqn:H3; [|discriminate].
  destruct (Rltb lon 360) eqn:H4; [|discriminate].
  cbn [andb]. intros H. injection H as <-.
  apply Rleb_true in H1, H2, H3. apply Rltb_true in H4.
  repeat split; assumption.
Qed.

Ltac ask :=
  unfold run, bind, call, lift, emit; cbv beta iota zeta;
  repeat match goal with
         | |- context [match ?r with Ok _ => _ | Err _ => _ end] =>
             destruct r eqn:?; cbv beta iota zeta
         end.

Ltac reduce_trace :=
  cbn [trace outcome plots calls fst snd app filter is_plot is_call length].

Variable w : World.
Variable i : Inputs.

(** X8.  The altitude figure is shown exactly by the runs that end
    normally, and such a run has shown the two figures, the airmass figure
    first. *)
Theorem altitude_figure_iff_success :
  ((exists p, In (ShowAltitude p) (trace (run w i))) <-> outcome (run w i) = Ok tt) /\
  (outcome (run w i) = Ok tt ->
   exists pa pb, plots (run w i) = [ShowAirmass pa; ShowAltitude pb]).
Proof.
  ask; reduce_trace; (split; [split|]).
  all: try (intros [p Hin]; cbn [In] in Hin;
            repeat (destruct Hin as [Hin|Hin]; [discriminate Hin|]);
            destruct Hin).
  all: try (intros Hout; discriminate Hout).
  all: try reflexivity.
  - intros _. eexists. cbn [In]. do 10 right. left. reflexivity.
  - intros _. do 2 eexists. reflexivity.
Qed.

(** X9.  Every run starts by resolving the target's name and never asks
    the resolver again, whatever the collaborators answer. *)
Theorem resolver_asked_once_and_first :
  exists rest,
    trace (run w i) = CallFromName (target_name i) :: rest /\
    forall name, ~ In (CallFromName name) rest.
Proof.
  ask; reduce_trace; eexists; (split; [reflexivity|]).
  all: intros name Hin; cbn [In] in Hin;
    repeat (destruct Hin as [Hin|Hin]; [discriminate Hin|]); exact Hin.
Qed.

(** X10.  What the collaborators are asked: the Sun's and the Moon's
    ephemerides only for the noon-to-noon instants (and no body but the
    Moon), and the engine only for frames at one and the same location,
    built after the latitude of the site has passed the validation, at the
    visit time, the night window or the noon-to-noon instants. *)
Theorem collaborators_asked_for_the_frames :
  exists loc : ObserverLocation,
    Forall (fun ev =>
              match ev with
              | CallGetSun times => times = times_July12_to_13 i
              | CallGetBody name times =>
                  name = "moon"%string /\ times = times_July12_to_13 i
              | CallTransform c frame =>
                  location frame = loc /\
                  -90 <= site_lat i <= 90 /\
                  (obstime frame = [time i]
                   \/ obstime frame
                      = obstimes (midnight i)
                                 (linspace (night_start i) (night_stop i) (night_num i))
                   \/ obstime frame = times_July12_to_13 i)
              | _ => True
              end)
           (trace (run w i)).
Proof.
  ask; reduce_trace.
  all: first [ match goal with
               | H : EarthLocation _ _ _ = Ok ?loc |- _ =>
                   exists loc;
                   destruct (EarthLocation_Ok_range _ _ _ _ H) as (_ & Hlat & _)
               end
             | exists (mkLocation 0 0 0) ].
  all: repeat (apply Forall_cons; [|]); try apply Forall_nil.
  all: try exact I.
  all: try reflexivity.
  all: try (split; reflexivity).
  all: cbn [location obstime frame_visit frame_July13night frame_July12_to_13].
  all: split; [reflexivity|]; split; [exact Hlat|].
  all: first [ left; reflexivity
             | right; left; reflexivity
             | right; right; reflexivity ].
Qed.

(** X11.  A run makes at most eight calls to its collaborators and at most
    eleven steps in all; a run that ends normally makes exactly eight and
    eleven. *)
Theorem call_budget :
  (length (calls (trace (run w i))) <= 8)%nat /\
  (length (trace (run w i)) <= 11)%nat /\
  (outcome (run w i) = Ok tt ->
   length (calls (trace (run w i))) = 8%nat /\ length (trace (run w i)) = 11%nat).
Proof.
  ask; reduce_trace; (split; [lia|]); (split; [lia|]).
  all: intros Hout; try discriminate Hout.
  split; reflexivity.
Qed.

(** X12.  With an engine that answers one coordinate per observation
    time, whatever a run prints or hands to the plotting layer is as long as
    the time axis it belongs to: one altitude is printed, the airmass figure
    has [night_num] hours and values, and the altitude figure has [full_num]
    hours, values of each curve, colours and entries of both fill masks. *)
Theorem figures_have_matching_lengths :
  sample_per_obstime w ->
  Forall (fun ev =>
            match ev with
            | Printed altitude => length altitude = 1%nat
            | ShowAirmass p =>
                length (airmass_hours p) = night_num i /\
                length (airmass_values p) = night_num i
            | ShowAltitude p =>
                length (altitude_hours p) = full_num i /\
                length (sun_alt p) = full_num i /\
                length (moon_alt p) = full_num i /\
                length (m33_alt p) = full_num i /\
                length (m33_az p) = full_num i /\
                length (fill_grey p) = full_num i /\
                length (fill_black p) = full_num i
            | _ => True
            end)
         (trace (run w i)).
Proof.
  intros Hper.
  ask; reduce_trace.
  all: repeat match goal with
              | H : transform_to w _ _ = Ok _ |- _ => apply Hper in H
              end.
  all: cbn [obstime frame_visit frame_July13night frame_July12_to_13 length] in *.
  all: unfold times_July12_to_13 in *.
  all: rewrite ?length_obstimes, ?length_linspace in *.
  all: repeat (apply Forall_cons; [|]); try apply Forall_nil.
  all: try exact I.
  all: cbn [airmass_hours airmass_values altitude_plot altitude_hours sun_alt moon_alt
            m33_alt m33_az fill_grey fill_black].
  all: unfold below_horizon_mask, night_mask.
  all: rewrite ?length_linspace, ?length_map.
  all: repeat split; assumption.
Qed.

End RunShape.

Section RunShapeInPlanetarium.

Lemma In_last (l : list Event) (d : Event) : l <> [] -> In (last l d) l.
Proof.
  induction l as [|x rest IH]; intros Hne; [contradiction|].
  destruct rest as [|y rest']; [left; reflexivity|].
  right. apply IH. discriminate.
Qed.

(** In the planetarium the script ends by showing the altitude figure, whose
    colours and fill masks have 1000 entries each. *)
Lemma figures_in_planetarium :
  sample_per_obstime planetarium /\
  exists p,
    last (trace (run planetarium notebook_inputs)) (CallFromName EmptyString)
      = ShowAltitude p /\
    length (m33_az p) = 1000%nat /\
    length (fill_grey p) = 1000%nat /\
    length (fill_black p) = 1000%nat.
Proof.
  split; [exact planetarium_sample_per_obstime|].
  destruct (shared_frame planetarium notebook_inputs notebook_in_planetarium)
    as (m33 & sun & moon & loc & sa & ma & ta
        & _ & _ & _ & _ & _ & _ & _ & _ & Hlast & _).
  exists (altitude_plot notebook_inputs sa ma ta).
  split; [exact Hlast|].
  pose proof (figures_have_matching_lengths planetarium notebook_inputs
                planetarium_sample_per_obstime) as Hall.
  rewrite Forall_forall in Hall.
  assert (Hin : In (ShowAltitude (altitude_plot notebook_inputs sa ma ta))
                   (trace (run planetarium notebook_inputs))).
  { rewrite <- Hlast. apply In_last. intros Hnil.
    rewrite Hnil in Hlast. discriminate Hlast. }
  destruct (Hall _ Hin) as (_ & _ & _ & _ & Haz & Hg & Hb).
  split; [exact Haz|]. split; [exact Hg | exact Hb].
Defined.

End RunShapeInPlanetarium.
